(** * check_mongo.py: the MongoDB inspection script, embedded and verified

    The script [server/check_mongo.py] connects to a MongoDB deployment,
    pings it, counts the documents of one collection and prints up to
    [SAMPLE_LIMIT] of them.  Everything it does is a call into the driver
    (pymongo) followed by [print] or [sys.exit], so the embedding has three
    layers:

    - [Py]: a small state-and-exception monad for the Python control flow
      the script uses ([try]/[except Exception]/[finally], [sys.exit],
      [print] to either stream);
    - [Driver]: the answers of the database driver, as an oracle the script
      queries (what [MongoClient], [ping], [count_documents] and the cursor
      of [find().limit()] do on this run);
    - [main]: the script itself, statement by statement.

    The script is generic in the documents and in their renderer;
    [json_util_dumps] models the renderer it imports, [bson.json_util.dumps]
    in its default (relaxed Extended JSON) mode, on documents without
    floating-point numbers. *)

From Stdlib Require Import ZArith List String Ascii Bool Lia.
From Stdlib Require Import DecimalString DecimalPos DecimalZ.
Import ListNotations.
Open Scope string_scope.
Open Scope Z_scope.
Set Warnings "-register-all".

(** ** Module-level constants (lines 6-9 of the script) *)

Definition MONGO_URI : string := "mongodb://localhost:27017".
Definition DB_NAME : string := "clever_record_keeper".
Definition COLLECTION_NAME : string := "students".
Definition SAMPLE_LIMIT : Z := 5.

(** ** Strings and lists *)

(** [enumerate(l, start)]. *)
Fixpoint enumerate {A} (start : Z) (l : list A) : list (Z * A) :=
  match l with
  | [] => []
  | x :: rest => (start, x) :: enumerate (start + 1) rest
  end.

(** [str(n)] for a Python [int]. *)
Definition str_int (n : Z) : string := NilZero.string_of_int (Z.to_int n).

(** [s.startswith(p)]. *)
Fixpoint starts_with (p s : string) : bool :=
  match p, s with
  | EmptyString, _ => true
  | String a p', String b s' => Ascii.eqb a b && starts_with p' s'
  | String _ _, EmptyString => false
  end.

(** [p in s] for strings: some suffix of [s] starts with [p]. *)
Fixpoint contains (p s : string) : bool :=
  starts_with p s ||
  match s with
  | EmptyString => false
  | String _ s' => contains p s'
  end.

(** [c in s] for one character. *)
Fixpoint has_char (c : ascii) (s : string) : bool :=
  match s with
  | EmptyString => false
  | String b s' => Ascii.eqb c b || has_char c s'
  end.

Fixpoint last_char (s : string) : option ascii :=
  match s with
  | EmptyString => None
  | String c EmptyString => Some c
  | String _ s' => last_char s'
  end.

(** ** The Python control flow the script relies on *)

(** An exception is kept as its message, [str(e)]: the script only ever
    formats a caught exception into a diagnostic. *)
Definition Exn := string.

(** What one run does. [requests] is the log of the driver operations the
    script calls, oldest first, one entry for each call; what the driver
    writes to the server for a call is its own business (see [on_the_wire]
    below). [handles] counts the [MongoClient] objects constructed and
    [closes] the calls of [client.close()]. *)
Inductive Request :=
| ReqPing
| ReqCount (db col : string)
| ReqFind (db col : string) (limit : Z).

Record Process := mkProcess {
  stdout : list string;
  stderr : list string;
  requests : list Request;
  handles : nat;
  closes : nat
}.

Definition start : Process := mkProcess [] [] [] 0 0.

(** How a block of statements ends: normally, with an exception of class
    [Exception], or with [SystemExit] (raised by [sys.exit], a
    [BaseException] that [except Exception] does not catch). *)
Inductive Outcome (A : Type) :=
| Normal (a : A)
| Raised (e : Exn)
| SysExit (code : Z).
Arguments Normal {A} a.
Arguments Raised {A} e.
Arguments SysExit {A} code.

Definition Py (A : Type) : Type := Process -> Outcome A * Process.

Definition ret {A} (a : A) : Py A := fun p => (Normal a, p).

Definition bind {A B} (m : Py A) (k : A -> Py B) : Py B :=
  fun p =>
    match m p with
    | (Normal a, p') => k a p'
    | (Raised e, p') => (Raised e, p')
    | (SysExit c, p') => (SysExit c, p')
    end.

Notation "x <- m ;; k" := (bind m (fun x => k))
  (at level 61, m at next level, right associativity).
Notation "m ;; k" := (bind m (fun _ => k))
  (at level 61, right associativity).

Definition raise {A} (e : Exn) : Py A := fun p => (Raised e, p).

(** [sys.exit(code)]. *)
Definition sys_exit {A} (code : Z) : Py A := fun p => (SysExit code, p).

(** [try: body / except Exception as e: handler e]. *)
Definition try_except {A} (body : Py A) (handler : Exn -> Py A) : Py A :=
  fun p =>
    match body p with
    | (Raised e, p') => handler e p'
    | r => r
    end.

(** [try: body / finally: cleanup]: the cleanup runs however the body ends,
    and the body's outcome is kept unless the cleanup itself does not end
    normally. *)
Definition try_finally {A} (body : Py A) (cleanup : Py unit) : Py A :=
  fun p =>
    match body p with
    | (r, p') =>
        match cleanup p' with
        | (Normal _, p'') => (r, p'')
        | (Raised e, p'') => (Raised e, p'')
        | (SysExit c, p'') => (SysExit c, p'')
        end
    end.

(** [print(s)] and [print(s, file=sys.stderr)]; an entry of the stream is the
    text of one call, without the newline [print] appends. *)
Definition print (s : string) : Py unit :=
  fun p => (Normal tt,
            mkProcess (stdout p ++ [s]) (stderr p) (requests p) (handles p) (closes p)).

Definition print_err (s : string) : Py unit :=
  fun p => (Normal tt,
            mkProcess (stdout p) (stderr p ++ [s]) (requests p) (handles p) (closes p)).

Definition send (r : Request) : Py unit :=
  fun p => (Normal tt,
            mkProcess (stdout p) (stderr p) (requests p ++ [r]) (handles p) (closes p)).

(** The exit status of the interpreter: 0 when [main] returns, the argument
    of [sys.exit], 1 for an exception nobody caught. *)
Definition exit_code {A} (o : Outcome A) : Z :=
  match o with
  | Normal _ => 0
  | Raised _ => 1
  | SysExit c => c
  end.

(** ** The driver *)

(** The handles the driver gives out. They carry the names they were made
    from and nothing else. *)
Record MongoClient_t := mkClient { client_uri : string }.
Record Database_t := mkDatabase { db_client : MongoClient_t; db_name : string }.
Record Collection_t := mkCollection { col_db : Database_t; col_name : string }.

Section Script.

(** A document as the driver hands it to the script, and
    [bson.json_util.dumps(doc, indent=n)]. *)
Variable Document : Type.
Variable dumps : Document -> Z -> string.

(** A cursor is single-pass: each advance yields a document, finds the
    cursor exhausted, or raises. *)
Inductive Cursor :=
| Exhausted
| Yield (doc : Document) (rest : Cursor)
| Broken (e : Exn).

(** What the driver answers on this run. [None] stands for "no exception". *)
Record Driver := mkDriver {
  drv_connect : string -> Z -> option Exn;
  drv_ping : option Exn;
  drv_count : string -> string -> Exn + Z;
  drv_find : string -> string -> Z -> Cursor
}.

Variable drv : Driver.

(** [MongoClient(uri, serverSelectionTimeoutMS=t)]. *)
Definition MongoClient (uri : string) (timeout_ms : Z) : Py MongoClient_t :=
  fun p =>
    match drv_connect drv uri timeout_ms with
    | Some e => (Raised e, p)
    | None =>
        (Normal (mkClient uri),
         mkProcess (stdout p) (stderr p) (requests p) (S (handles p)) (closes p))
    end.

(** [client.admin.command('ping')]. *)
Definition admin_ping (client : MongoClient_t) : Py unit :=
  send ReqPing ;;
  match drv_ping drv with
  | Some e => raise e
  | None => ret tt
  end.

(** [client.close()]. *)
Definition close (client : MongoClient_t) : Py unit :=
  fun p => (Normal tt,
            mkProcess (stdout p) (stderr p) (requests p) (handles p) (S (closes p))).

(** The driver refuses a database name that is empty or holds one of the
    characters the server forbids, and a collection name that is empty,
    holds [..], [$] or NUL, or starts or ends with a dot. *)
Definition valid_db_name (name : string) : bool :=
  negb (String.eqb name "") &&
  forallb (fun c => negb (has_char c name))
          [" "%char; "."%char; "$"%char; "/"%char; "\"%char; "000"%char; "034"%char].

Definition valid_collection_name (name : string) : bool :=
  negb (String.eqb name "") &&
  negb (contains ".." name) &&
  negb (has_char "$"%char name) &&
  negb (has_char "000"%char name) &&
  negb (starts_with "." name) &&
  negb (match last_char name with Some c => Ascii.eqb c "."%char | None => false end).

(** [client[name]] and [db[name]]. *)
Definition get_database (client : MongoClient_t) (name : string) : Py Database_t :=
  if valid_db_name name then ret (mkDatabase client name)
  else raise "database name is invalid".

Definition get_collection (db : Database_t) (name : string) : Py Collection_t :=
  if valid_collection_name name then ret (mkCollection db name)
  else raise "collection name is invalid".

(** [col.count_documents({})]. *)
Definition count_documents (col : Collection_t) : Py Z :=
  send (ReqCount (db_name (col_db col)) (col_name col)) ;;
  match drv_count drv (db_name (col_db col)) (col_name col) with
  | inl e => raise e
  | inr n => ret n
  end.

(** [col.find({}).limit(n)]. The driver runs the find when the loop first
    advances the cursor, which is the next thing the script does. *)
Definition find_limit (col : Collection_t) (n : Z) : Py Cursor :=
  send (ReqFind (db_name (col_db col)) (col_name col) n) ;;
  ret (drv_find drv (db_name (col_db col)) (col_name col) n).

(** ** The script *)

Definition connect_error_message (e : Exn) : string :=
  "ERROR: Unable to connect to MongoDB at " ++ MONGO_URI ++ ": " ++ e.

Definition query_error_message (e : Exn) : string :=
  "ERROR while querying the collection:" ++ " " ++ e.

Definition connected_line : string :=
  "Connected to " ++ MONGO_URI ++ " -> DB: " ++ DB_NAME ++
  " -> Collection: " ++ COLLECTION_NAME.

Definition count_line (count : Z) : string := "Document count: " ++ str_int count.

Definition showing_line : string :=
  String "010" ("Showing up to " ++ str_int SAMPLE_LIMIT ++ " sample documents:"
                ++ String "010" "").

Definition document_label (i : Z) : string := "--- Document " ++ str_int i ++ " ---".

(** Lines 32-36: [for i, doc in enumerate(cursor, start=i): ...]. *)
Fixpoint print_documents (i : Z) (cursor : Cursor) : Py unit :=
  match cursor with
  | Exhausted => ret tt
  | Broken e => raise e
  | Yield doc rest =>
      print (document_label i) ;;
      print (dumps doc 2) ;;
      print "" ;;
      print_documents (i + 1) rest
  end.

(** Lines 12-18. *)
Definition connect : Py MongoClient_t :=
  try_except
    (client <- MongoClient MONGO_URI 5000 ;;
     admin_ping client ;;
     ret client)
    (fun e =>
       print_err (connect_error_message e) ;;
       sys_exit 2).

(** Lines 20-21. *)
Definition resolve_target (client : MongoClient_t) : Py Collection_t :=
  db <- get_database client DB_NAME ;;
  get_collection db COLLECTION_NAME.

(** Lines 24-36, the body of the second [try]. *)
Definition query (col : Collection_t) : Py unit :=
  count <- count_documents col ;;
  print connected_line ;;
  print (count_line count) ;;
  if count =? 0 then
    print "Collection is empty."
  else
    print showing_line ;;
    cursor <- find_limit col SAMPLE_LIMIT ;;
    print_documents 1 cursor.

(** Lines 11-41. *)
Definition main : Py unit :=
  client <- connect ;;
  col <- resolve_target client ;;
  try_finally
    (try_except
       (query col)
       (fun e =>
          print_err (query_error_message e) ;;
          sys_exit 3))
    (close client).

(** One run of the script from a fresh process. *)
Definition run : Outcome unit * Process := main start.

(** ** Reading a run *)

(** The documents a cursor yields before it stops, and the exception that
    stops it, if one does. *)
Fixpoint cursor_docs (cursor : Cursor) : list Document :=
  match cursor with
  | Exhausted => []
  | Yield doc rest => doc :: cursor_docs rest
  | Broken _ => []
  end.

Fixpoint cursor_fault (cursor : Cursor) : option Exn :=
  match cursor with
  | Exhausted => None
  | Yield _ rest => cursor_fault rest
  | Broken e => Some e
  end.

(** The exception, if any, that keeps this run from a verified connection:
    raised by the constructor, or else by the ping. *)
Definition connect_fault : option Exn :=
  match drv_connect drv MONGO_URI 5000 with
  | Some e => Some e
  | None => drv_ping drv
  end.

(** The exception, if any, raised while counting or while iterating. *)
Definition query_fault : option Exn :=
  match drv_count drv DB_NAME COLLECTION_NAME with
  | inl e => Some e
  | inr count =>
      if count =? 0 then None
      else cursor_fault (drv_find drv DB_NAME COLLECTION_NAME SAMPLE_LIMIT)
  end.

(** What the loop prints for the document at index [i]. *)
Definition document_block (entry : Z * Document) : list string :=
  [document_label (fst entry); dumps (snd entry) 2; ""].

(** The three status entries that precede the sample, and the sample as the
    loop prints it: one block for each document the cursor yields. *)
Definition preamble (count : Z) : list string :=
  [connected_line; count_line count; showing_line].

Definition sampled : list string :=
  flat_map document_block
    (enumerate 1 (cursor_docs (drv_find drv DB_NAME COLLECTION_NAME SAMPLE_LIMIT))).

(** The two operations the script can call after the ping. *)
Definition count_request : Request := ReqCount DB_NAME COLLECTION_NAME.
Definition find_request : Request := ReqFind DB_NAME COLLECTION_NAME SAMPLE_LIMIT.

(** ** A deployment that honours the driver's contract *)

(** [limit(n)] keeps the first [n] documents; the driver reads a limit of 0
    as no limit and a negative limit by its absolute value. *)
Definition limit_docs (n : Z) (docs : list Document) : list Document :=
  if n =? 0 then docs else firstn (Z.abs_nat n) docs.

Fixpoint cursor_over (docs : list Document) : Cursor :=
  match docs with
  | [] => Exhausted
  | doc :: rest => Yield doc (cursor_over rest)
  end.

(** A reachable server whose collections do not change during the run and
    whose requests all succeed: the count is the size of the collection and
    the cursor runs over its documents in natural order, up to the limit. *)
Definition healthy (collections : string -> string -> list Document) : Driver :=
  mkDriver (fun _ _ => None) None
           (fun db col => inr (Z.of_nat (List.length (collections db col))))
           (fun db col n => cursor_over (limit_docs n (collections db col))).

End Script.

Arguments Exhausted {Document}.
Arguments Yield {Document} doc rest.
Arguments Broken {Document} e.
Arguments mkDriver {Document}.
Arguments drv_connect {Document}.
Arguments drv_ping {Document}.
Arguments drv_count {Document}.
Arguments drv_find {Document}.
Arguments cursor_docs {Document}.
Arguments cursor_fault {Document}.
Arguments cursor_over {Document}.
Arguments limit_docs {Document}.
Arguments healthy {Document}.
Arguments connect_fault {Document}.
Arguments query_fault {Document}.
Arguments run {Document}.
Arguments main {Document}.
Arguments query {Document}.
Arguments connect {Document}.
Arguments print_documents {Document}.
Arguments document_block {Document}.
Arguments sampled {Document}.
Arguments count_documents {Document}.
Arguments find_limit {Document}.
Arguments MongoClient {Document}.
Arguments admin_ping {Document}.

(** The entries of standard output that open a document block. *)
Definition is_document_label (line : string) : bool :=
  starts_with "--- Document " line.

Definition document_blocks (out : list string) : nat :=
  List.length (filter is_document_label out).

(** ** A sample deployment *)

(** Flat documents and a stand-in renderer, to run the script on: one
    member per line, indented, an identifier as a [$oid] wrapper. The
    stand-in copies the text as it is, without the escaping of the driver's
    renderer, which is [json_util_dumps] below. *)
Inductive Value :=
| VString (s : string)
| VInt (n : Z)
| VObjectId (hex : string).

Definition SampleDoc := list (string * Value).

Definition newline : string := String "010" "".
Definition quoted (s : string) : string := String "034" (s ++ String "034" "").

Fixpoint spaces (n : nat) : string :=
  match n with
  | O => ""
  | S n' => String " " (spaces n')
  end.

Definition render_value (indent : nat) (v : Value) : string :=
  match v with
  | VString s => quoted s
  | VInt n => str_int n
  | VObjectId hex =>
      "{" ++ newline ++ spaces (2 * indent) ++ quoted "$oid" ++ ": " ++ quoted hex
          ++ newline ++ spaces indent ++ "}"
  end.

Fixpoint render_members (indent : nat) (doc : SampleDoc) : string :=
  match doc with
  | [] => ""
  | [(k, v)] => spaces indent ++ quoted k ++ ": " ++ render_value indent v ++ newline
  | (k, v) :: rest =>
      spaces indent ++ quoted k ++ ": " ++ render_value indent v ++ "," ++ newline
      ++ render_members indent rest
  end.

Definition sample_dumps (doc : SampleDoc) (indent : Z) : string :=
  match doc with
  | [] => "{}"
  | _ => "{" ++ newline ++ render_members (Z.to_nat indent) doc ++ "}"
  end.

Definition student (oid name : string) (year : Z) : SampleDoc :=
  [("_id", VObjectId oid); ("name", VString name); ("year", VInt year)].

Definition three_students : list SampleDoc :=
  [student "65a1" "Asha" 1; student "65a2" "Bram" 2; student "65a3" "Chen" 3].

Definition twelve_students : list SampleDoc :=
  three_students ++ three_students ++ three_students ++ three_students.

Definition campus (docs : list SampleDoc) (db col : string) : list SampleDoc :=
  if String.eqb db DB_NAME && String.eqb col COLLECTION_NAME then docs else [].

(** Faulty deployments: an invalid URI, a server that refuses the ping, a
    count that fails, and a cursor that breaks after two documents. *)
Definition bad_uri : Driver SampleDoc :=
  mkDriver (fun _ _ => Some "invalid URI") None (fun _ _ => inr 0) (fun _ _ _ => Exhausted).

Definition ping_refused : Driver SampleDoc :=
  mkDriver (fun _ _ => None) (Some "Authentication failed.")
           (fun _ _ => inr 3) (fun _ _ _ => cursor_over three_students).

Definition count_fails : Driver SampleDoc :=
  mkDriver (fun _ _ => None) None
           (fun _ _ => inl "not authorized on clever_record_keeper")
           (fun _ _ _ => cursor_over three_students).

Definition cursor_breaks : Driver SampleDoc :=
  mkDriver (fun _ _ => None) None (fun _ _ => inr 3)
           (fun _ _ _ =>
              Yield (student "65a1" "Asha" 1)
                (Yield (student "65a2" "Bram" 2) (Broken "connection reset"))).



(** A deployment that holds the three students where the script looks and
    other documents everywhere else, and a driver whose count is stale: it
    reports three documents for a collection the cursor finds empty. *)
Definition shared_cluster (db col : string) : list SampleDoc :=
  if String.eqb db DB_NAME && String.eqb col COLLECTION_NAME
  then three_students else twelve_students.

Definition stale_count : Driver SampleDoc :=
  mkDriver (fun _ _ => None) None (fun _ _ => inr 3) (fun _ _ _ => Exhausted).

(** ** Documents, and [bson.json_util.dumps] *)



























(** ** A sample of the students collection *)








(** ** On the wire *)

(** One call of a driver operation is not one command on the wire. Server
    selection can fail before anything is written, so the ping of an
    unreachable server is never sent; and the script leaves the driver's
    retryable reads on (line 13 passes no [retryReads=False]), so a count or
    a find whose first attempt fails on a network error is written once
    more before the call raises. [sends op] is the number of times the
    driver writes the command of the call [op] on this run, and
    [on_the_wire] lists the commands of the three operations in the order
    they are written. *)
Definition Sends := Request -> nat.

Definition on_the_wire (sends : Sends) (calls : list Request) : list Request :=
  flat_map (fun op => repeat op (sends op)) calls.



(** ** Statements kept apart for comparison with the script *)



(** "No client is ever constructed on a run that exits with status 2." *)
Definition nothing_opened_on_exit_2 {Document} (dumps : Document -> Z -> string)
    (drv : Driver Document) : Prop :=
  exit_code (fst (run dumps drv)) = 2 -> handles (snd (run dumps drv)) = 0%nat.

(** * Properties *)

Section Properties.

Context {Document : Type}.
Variable dumps : Document -> Z -> string.

Implicit Types (drv : Driver Document) (cursor : Cursor Document) (p : Process).

(** ** The loop *)

Lemma print_documents_spec cursor : forall i p,
  print_documents dumps i cursor p =
  (match cursor_fault cursor with
   | None => Normal tt
   | Some e => Raised e
   end,
   mkProcess
     (stdout p ++ flat_map (document_block dumps) (enumerate i (cursor_docs cursor)))
     (stderr p) (requests p) (handles p) (closes p)).
Proof.
  induction cursor as [| doc rest IH | e]; intros i p.
  - destruct p; simpl. unfold ret. now rewrite app_nil_r.
  - cbn [print_documents cursor_fault cursor_docs enumerate flat_map].
    unfold bind at 1 2 3. unfold print at 1 2 3. cbn [stdout stderr requests handles closes].
    rewrite IH. cbn [stdout stderr requests handles closes].
    unfold document_block at 2. cbn [fst snd].
    now rewrite <- !app_assoc.
  - destruct p; simpl. unfold raise. now rewrite app_nil_r.
Qed.

Lemma cursor_docs_over (docs : list Document) : cursor_docs (cursor_over docs) = docs.
Proof. induction docs as [| d r IH]; simpl; congruence. Qed.

Lemma cursor_fault_over (docs : list Document) : cursor_fault (cursor_over docs) = None.
Proof. induction docs as [| d r IH]; simpl; auto. Qed.

(** ** The five ways a run can go *)

Lemma run_constructor_raises drv e :
  drv_connect drv MONGO_URI 5000 = Some e ->
  run dumps drv = (SysExit 2, mkProcess [] [connect_error_message e] [] 0 0).
Proof.
  intros H. unfold run, main, connect, try_except, bind, MongoClient.
  now rewrite H.
Qed.

Lemma run_ping_raises drv e :
  drv_connect drv MONGO_URI 5000 = None ->
  drv_ping drv = Some e ->
  run dumps drv = (SysExit 2, mkProcess [] [connect_error_message e] [ReqPing] 1 0).
Proof.
  intros H1 H2. unfold run, main, connect, try_except, bind, MongoClient, admin_ping, bind.
  now rewrite H1, H2.
Qed.

Lemma run_connected drv :
  connect_fault drv = None ->
  run dumps drv =
  try_finally
    (try_except
       (query dumps drv (mkCollection (mkDatabase (mkClient MONGO_URI) DB_NAME) COLLECTION_NAME))
       (fun e => print_err (query_error_message e) ;; sys_exit 3))
    (close (mkClient MONGO_URI))
    (mkProcess [] [] [ReqPing] 1 0).
Proof.
  unfold connect_fault. intros H.
  destruct (drv_connect drv MONGO_URI 5000) eqn:H1; [discriminate|].
  unfold run, main, connect. unfold bind at 1, try_except at 1.
  unfold bind, MongoClient, admin_ping, bind. rewrite H1, H. reflexivity.
Qed.

Lemma run_count_raises drv e :
  connect_fault drv = None ->
  drv_count drv DB_NAME COLLECTION_NAME = inl e ->
  run dumps drv =
  (SysExit 3, mkProcess [] [query_error_message e] [ReqPing; count_request] 1 1).
Proof.
  intros H1 H2. rewrite (run_connected _ H1).
  unfold try_finally, try_except, query, count_documents, bind. cbn.
  now rewrite H2.
Qed.

Lemma run_empty drv :
  connect_fault drv = None ->
  drv_count drv DB_NAME COLLECTION_NAME = inr 0 ->
  run dumps drv =
  (Normal tt,
   mkProcess [connected_line; count_line 0; "Collection is empty."] []
             [ReqPing; count_request] 1 1).
Proof.
  intros H1 H2. rewrite (run_connected _ H1).
  unfold try_finally, try_except, query, count_documents, bind. cbn.
  now rewrite H2.
Qed.

Lemma run_sampling drv count :
  connect_fault drv = None ->
  drv_count drv DB_NAME COLLECTION_NAME = inr count ->
  count <> 0 ->
  run dumps drv =
  match cursor_fault (drv_find drv DB_NAME COLLECTION_NAME SAMPLE_LIMIT) with
  | None =>
      (Normal tt,
       mkProcess (preamble count ++ sampled dumps drv) [] [ReqPing; count_request; find_request] 1 1)
  | Some e =>
      (SysExit 3,
       mkProcess (preamble count ++ sampled dumps drv) [query_error_message e]
                 [ReqPing; count_request; find_request] 1 1)
  end.
Proof.
  intros H1 H2 H3. rewrite (run_connected _ H1).
  apply Z.eqb_neq in H3.
  unfold try_finally, try_except, query, count_documents, find_limit, bind. cbn.
  rewrite H2. cbn. rewrite H3. cbn.
  rewrite print_documents_spec. cbn. unfold sampled.
  destruct (cursor_fault _); reflexivity.
Qed.

(** How the run ends and what reaches standard error, for every driver. *)
Lemma run_outcome drv :
  fst (run dumps drv) =
  match connect_fault drv with
  | Some _ => SysExit 2
  | None =>
      match query_fault drv with
      | Some _ => SysExit 3
      | None => Normal tt
      end
  end.
Proof.
  destruct (connect_fault drv) as [e|] eqn:Hc.
  - unfold connect_fault in Hc.
    destruct (drv_connect drv MONGO_URI 5000) as [e'|] eqn:H1.
    + now rewrite (run_constructor_raises _ _ H1).
    + now rewrite (run_ping_raises _ _ H1 Hc).
  - unfold query_fault.
    destruct (drv_count drv DB_NAME COLLECTION_NAME) as [e|count] eqn:H2.
    + now rewrite (run_count_raises _ _ Hc H2).
    + destruct (Z.eqb_spec count 0) as [->|Hn].
      * now rewrite (run_empty _ Hc H2).
      * rewrite (run_sampling _ _ Hc H2 Hn). now destruct (cursor_fault _).
Qed.

Lemma run_stderr drv :
  stderr (snd (run dumps drv)) =
  match connect_fault drv with
  | Some e => [connect_error_message e]
  | None =>
      match query_fault drv with
      | Some e => [query_error_message e]
      | None => []
      end
  end.
Proof.
  destruct (connect_fault drv) as [e|] eqn:Hc.
  - unfold connect_fault in Hc.
    destruct (drv_connect drv MONGO_URI 5000) as [e'|] eqn:H1.
    + rewrite (run_constructor_raises _ _ H1). now inversion Hc.
    + now rewrite (run_ping_raises _ _ H1 Hc).
  - unfold query_fault.
    destruct (drv_count drv DB_NAME COLLECTION_NAME) as [e|count] eqn:H2.
    + now rewrite (run_count_raises _ _ Hc H2).
    + destruct (Z.eqb_spec count 0) as [->|Hn].
      * now rewrite (run_empty _ Hc H2).
      * rewrite (run_sampling _ _ Hc H2 Hn). now destruct (cursor_fault _).
Qed.

(** When the connection is not verified, only the ping can have been sent,
    nothing is printed and nothing is closed. *)
Lemma run_not_connected drv e :
  connect_fault drv = Some e ->
  exists sent opened,
    run dumps drv = (SysExit 2, mkProcess [] [connect_error_message e] sent opened 0) /\
    (forall r, In r sent -> r = ReqPing) /\
    opened = match drv_connect drv MONGO_URI 5000 with Some _ => O | None => 1%nat end.
Proof.
  unfold connect_fault. intros Hc.
  destruct (drv_connect drv MONGO_URI 5000) as [e'|] eqn:H1.
  - inversion Hc; subst e'. exists [], 0%nat.
    rewrite (run_constructor_raises _ _ H1). repeat split. intros r [].
  - exists [ReqPing], 1%nat.
    rewrite (run_ping_raises _ _ H1 Hc). repeat split.
    intros r [<-|[]]. reflexivity.
Qed.

(** ** Counting the blocks of a sample *)

Lemma document_blocks_app (a b : list string) :
  document_blocks (a ++ b) = (document_blocks a + document_blocks b)%nat.
Proof. unfold document_blocks. now rewrite filter_app, length_app. Qed.

Lemma label_is_label i : is_document_label (document_label i) = true.
Proof. reflexivity. Qed.

Lemma object_is_no_label (s : string) :
  starts_with "{" s = true -> is_document_label s = false.
Proof.
  destruct s as [|c s']; [discriminate|].
  cbn [starts_with]. rewrite andb_true_r. intros H.
  apply Ascii.eqb_eq in H. subst c. reflexivity.
Qed.

Lemma document_blocks_sample (docs : list Document) :
  (forall doc, starts_with "{" (dumps doc 2) = true) ->
  forall i,
    document_blocks (flat_map (document_block dumps) (enumerate i docs)) = List.length docs.
Proof.
  intros Hobj. induction docs as [|doc rest IH]; intros i; [reflexivity|].
  cbn [enumerate flat_map]. rewrite document_blocks_app, IH.
  unfold document_block, document_blocks. cbn [fst snd filter].
  rewrite label_is_label, (object_is_no_label _ (Hobj doc)). reflexivity.
Qed.

Lemma document_blocks_preamble count : document_blocks (preamble count) = 0%nat.
Proof. reflexivity. Qed.

(** A positive limit caps the cursor at the smaller of limit and collection. *)
Lemma length_limit_docs n (docs : list Document) :
  0 < n ->
  List.length (limit_docs n docs) = Z.to_nat (Z.min n (Z.of_nat (List.length docs))).
Proof.
  intros Hn. unfold limit_docs.
  destruct (Z.eqb_spec n 0); [lia|].
  rewrite length_firstn. lia.
Qed.

(** ** The claims *)

(** C1. Against a deployment that answers every request, the number of
    document blocks on standard output is the smaller of [SAMPLE_LIMIT] (5)
    and the number of documents in the collection, and the run exits with
    status 0. *)
Theorem printed_blocks_min_limit_count (collections : string -> string -> list Document) :
  (forall doc, starts_with "{" (dumps doc 2) = true) ->
  document_blocks (stdout (snd (run dumps (healthy collections)))) =
    Z.to_nat (Z.min SAMPLE_LIMIT (Z.of_nat (List.length (collections DB_NAME COLLECTION_NAME))))
  /\ exit_code (fst (run dumps (healthy collections))) = 0.
Proof.
  intros Hobj.
  set (docs := collections DB_NAME COLLECTION_NAME).
  assert (Hc : connect_fault (healthy collections) = None) by reflexivity.
  assert (Hn : drv_count (healthy collections) DB_NAME COLLECTION_NAME
               = inr (Z.of_nat (List.length docs))) by reflexivity.
  destruct docs as [|d rest] eqn:Hdocs.
  - rewrite (run_empty _ Hc Hn). split; reflexivity.
  - rewrite (run_sampling _ _ Hc Hn) by (cbn [List.length]; lia).
    assert (Hf : drv_find (healthy collections) DB_NAME COLLECTION_NAME SAMPLE_LIMIT
                 = cursor_over (limit_docs SAMPLE_LIMIT (d :: rest))).
    { cbn [healthy drv_find]. fold docs. now rewrite Hdocs. }
    unfold sampled. rewrite Hf, cursor_fault_over, cursor_docs_over.
    cbn [snd fst stdout exit_code]. split; [|reflexivity].
    rewrite document_blocks_app, document_blocks_preamble.
    rewrite (document_blocks_sample _ Hobj).
    apply length_limit_docs. reflexivity.
Qed.

(** C2. When the count is 0 the script prints the count line and
    "Collection is empty.", prints no document block, sends no find request
    and exits with status 0. *)
Theorem empty_collection_reported drv :
  connect_fault drv = None ->
  drv_count drv DB_NAME COLLECTION_NAME = inr 0 ->
  let '(outcome, process) := run dumps drv in
  stdout process = [connected_line; "Document count: 0"; "Collection is empty."] /\
  document_blocks (stdout process) = 0%nat /\
  (forall db col n, ~ In (ReqFind db col n) (requests process)) /\
  exit_code outcome = 0.
Proof.
  intros Hc Hn. rewrite (run_empty _ Hc Hn). cbn [stdout requests exit_code].
  repeat split.
  intros db col n [H|[H|[]]]; discriminate.
Qed.

(** C3. When the constructor or the ping raises, no count or find request
    is sent, standard error holds one message containing "Unable to
    connect", standard output holds no "Document count" line and the exit
    status is 2. *)
Theorem connect_failure_exits_2 drv e :
  connect_fault drv = Some e ->
  let '(outcome, process) := run dumps drv in
  (forall r, In r (requests process) -> r = ReqPing) /\
  (exists message, stderr process = [message] /\
                   contains "Unable to connect" message = true) /\
  (forall line, In line (stdout process) -> contains "Document count" line = false) /\
  exit_code outcome = 2.
Proof.
  intros Hc. destruct (run_not_connected _ _ Hc) as (sent & opened & -> & Hsent & _).
  cbn [stdout stderr requests exit_code]. repeat split.
  - exact Hsent.
  - exists (connect_error_message e). split; reflexivity.
  - intros line [].
Qed.


(** C5. On every run that verified its connection, whichever way it ends,
    one client was constructed and [close] was called on it exactly once. *)
Theorem connection_closed_once drv :
  connect_fault drv = None ->
  handles (snd (run dumps drv)) = 1%nat /\ closes (snd (run dumps drv)) = 1%nat.
Proof.
  intros Hc.
  destruct (drv_count drv DB_NAME COLLECTION_NAME) as [e|count] eqn:Hn.
  - now rewrite (run_count_raises _ _ Hc Hn).
  - destruct (Z.eqb_spec count 0) as [->|Hz].
    + now rewrite (run_empty _ Hc Hn).
    + rewrite (run_sampling _ _ Hc Hn Hz). now destruct (cursor_fault _).
Qed.

(** C7. Every entry of standard error starts with "ERROR", and each failure
    the script catches leaves its message there: the connect message when
    the connection is not verified, the query message when counting or
    iterating fails. *)
Theorem diagnostics_prefixed_ERROR drv :
  (forall message, In message (stderr (snd (run dumps drv))) ->
                   starts_with "ERROR" message = true) /\
  (forall e, connect_fault drv = Some e ->
             stderr (snd (run dumps drv)) = [connect_error_message e]) /\
  (forall e, connect_fault drv = None -> query_fault drv = Some e ->
             stderr (snd (run dumps drv)) = [query_error_message e]).
Proof.
  rewrite run_stderr. repeat split.
  - destruct (connect_fault drv); [|destruct (query_fault drv)];
      intros message Hin;
      repeat (destruct Hin as [<-|Hin]; [reflexivity|]); destruct Hin.
  - now intros e ->.
  - now intros e -> ->.
Qed.

(** C8, as amended. On the exit-status-2 path [close] is never called and
    no count or find request has been sent; no client exists when the
    constructor raised, and one unclosed client exists when the constructor
    succeeded and the ping raised. *)
Theorem connect_failure_cleanup drv e :
  connect_fault drv = Some e ->
  let '(outcome, process) := run dumps drv in
  exit_code outcome = 2 /\
  closes process = 0%nat /\
  (forall r, In r (requests process) -> r = ReqPing) /\
  handles process =
    match drv_connect drv MONGO_URI 5000 with
    | Some _ => 0%nat
    | None => 1%nat
    end.
Proof.
  intros Hc. destruct (run_not_connected _ _ Hc) as (sent & opened & -> & Hsent & ->).
  cbn [closes handles requests exit_code]. repeat split. exact Hsent.
Qed.

(** C9. Resolving the database and collection handles from the fixed names
    raises nothing and touches nothing, so no exception escapes between the
    two handlers: every run exits with status 0, 2 or 3. *)
Theorem resolve_target_cannot_fail drv client p :
  resolve_target client p =
    (Normal (mkCollection (mkDatabase client "clever_record_keeper") "students"), p) /\
  In (exit_code (fst (run dumps drv))) [0; 2; 3].
Proof.
  split; [reflexivity|].
  rewrite run_outcome.
  destruct (connect_fault drv); [|destruct (query_fault drv)]; cbn; auto.
Qed.

(** C10. When the count itself raises, standard output stays empty: the
    only output of the run is the query message on standard error. *)
Theorem count_failure_leaves_stdout_empty drv e :
  connect_fault drv = None ->
  drv_count drv DB_NAME COLLECTION_NAME = inl e ->
  let '(outcome, process) := run dumps drv in
  stdout process = [] /\
  stderr process = [query_error_message e] /\
  exit_code outcome = 3.
Proof.
  intros Hc Hn. rewrite (run_count_raises _ _ Hc Hn). repeat split.
Qed.

End Properties.

(** * The properties on the sample deployment *)

Lemma sample_dumps_object (doc : SampleDoc) : starts_with "{" (sample_dumps doc 2) = true.
Proof. destruct doc; reflexivity. Defined.

(** Twelve students, limit 5: five blocks. *)
Lemma printed_blocks_min_limit_count_witness :
  (forall doc, starts_with "{" (sample_dumps doc 2) = true) /\
  document_blocks (stdout (snd (run sample_dumps (healthy (campus twelve_students))))) =
    Z.to_nat (Z.min SAMPLE_LIMIT
                (Z.of_nat (List.length (campus twelve_students DB_NAME COLLECTION_NAME))))
  /\ exit_code (fst (run sample_dumps (healthy (campus twelve_students)))) = 0.
Proof.
  split; [exact sample_dumps_object|].
  apply (printed_blocks_min_limit_count sample_dumps (campus twelve_students)).
  exact sample_dumps_object.
Defined.

Lemma empty_collection_reported_witness :
  connect_fault (healthy (campus [])) = None /\
  drv_count (healthy (campus [])) DB_NAME COLLECTION_NAME = inr 0 /\
  let '(outcome, process) := run sample_dumps (healthy (campus [])) in
  stdout process = [connected_line; "Document count: 0"; "Collection is empty."] /\
  document_blocks (stdout process) = 0%nat /\
  (forall db col n, ~ In (ReqFind db col n) (requests process)) /\
  exit_code outcome = 0.
Proof.
  split; [reflexivity|]. split; [reflexivity|].
  apply (empty_collection_reported sample_dumps (healthy (campus []))); reflexivity.
Defined.

Lemma connect_failure_exits_2_witness :
  connect_fault ping_refused = Some "Authentication failed." /\
  let '(outcome, process) := run sample_dumps ping_refused in
  (forall r, In r (requests process) -> r = ReqPing) /\
  (exists message, stderr process = [message] /\
                   contains "Unable to connect" message = true) /\
  (forall line, In line (stdout process) -> contains "Document count" line = false) /\
  exit_code outcome = 2.
Proof.
  split; [reflexivity|].
  apply (connect_failure_exits_2 sample_dumps ping_refused "Authentication failed.").
  reflexivity.
Defined.



Lemma connection_closed_once_witness :
  connect_fault cursor_breaks = None /\
  handles (snd (run sample_dumps cursor_breaks)) = 1%nat /\
  closes (snd (run sample_dumps cursor_breaks)) = 1%nat.
Proof.
  split; [reflexivity|].
  apply (connection_closed_once sample_dumps cursor_breaks). reflexivity.
Defined.

Lemma connect_failure_cleanup_witness :
  connect_fault bad_uri = Some "invalid URI" /\
  let '(outcome, process) := run sample_dumps bad_uri in
  exit_code outcome = 2 /\
  closes process = 0%nat /\
  (forall r, In r (requests process) -> r = ReqPing) /\
  handles process =
    match drv_connect bad_uri MONGO_URI 5000 with
    | Some _ => 0%nat
    | None => 1%nat
    end.
Proof.
  split; [reflexivity|].
  apply (connect_failure_cleanup sample_dumps bad_uri "invalid URI"). reflexivity.
Defined.

Lemma count_failure_leaves_stdout_empty_witness :
  connect_fault count_fails = None /\
  drv_count count_fails DB_NAME COLLECTION_NAME
    = inl "not authorized on clever_record_keeper" /\
  let '(outcome, process) := run sample_dumps count_fails in
  stdout process = [] /\
  stderr process = [query_error_message "not authorized on clever_record_keeper"] /\
  exit_code outcome = 3.
Proof.
  split; [reflexivity|]. split; [reflexivity|].
  apply (count_failure_leaves_stdout_empty sample_dumps count_fails
           "not authorized on clever_record_keeper"); reflexivity.
Defined.

(** C8 as the specification states it fails when the server is reached but
    refuses the ping: the client constructed on line 13 is still open when
    [sys.exit(2)] ends the process, and [close] was never called. *)
Lemma ping_failure_leaves_client_open :
  exit_code (fst (run sample_dumps ping_refused)) = 2 /\
  handles (snd (run sample_dumps ping_refused)) = 1%nat /\
  closes (snd (run sample_dumps ping_refused)) = 0%nat /\
  ~ nothing_opened_on_exit_2 sample_dumps ping_refused.
Proof.
  split; [reflexivity|]. split; [reflexivity|]. split; [reflexivity|].
  unfold nothing_opened_on_exit_2. intros H.
  assert (Hopen : handles (snd (run sample_dumps ping_refused)) = 1%nat) by reflexivity.
  rewrite H in Hopen by reflexivity. discriminate Hopen.
Qed.

(** ** The scenarios of the specification *)

Example scenario_three_documents :
  let '(outcome, process) := run sample_dumps (healthy (campus three_students)) in
  filter is_document_label (stdout process) =
    ["--- Document 1 ---"; "--- Document 2 ---"; "--- Document 3 ---"] /\
  exit_code outcome = 0.
Proof. vm_compute. split; reflexivity. Qed.

Example scenario_twelve_documents :
  let '(outcome, process) := run sample_dumps (healthy (campus twelve_students)) in
  document_blocks (stdout process) = 5%nat /\
  In "Document count: 12" (stdout process) /\
  exit_code outcome = 0.
Proof.
  vm_compute. split; [reflexivity|]. split; [|reflexivity].
  right; left; reflexivity.
Qed.

Example scenario_first_block :
  nth_error (stdout (snd (run sample_dumps (healthy (campus three_students))))) 4 =
  Some (String "{" (newline ++
        "  " ++ quoted "_id" ++ ": {" ++ newline ++
        "    " ++ quoted "$oid" ++ ": " ++ quoted "65a1" ++ newline ++
        "  }," ++ newline ++
        "  " ++ quoted "name" ++ ": " ++ quoted "Asha" ++ "," ++ newline ++
        "  " ++ quoted "year" ++ ": 1" ++ newline ++
        "}")).
Proof. vm_compute. reflexivity. Qed.

(** * Further properties of [main] *)

Section Whole_run.

Context {Document : Type}.
Variable dumps : Document -> Z -> string.

Implicit Types (drv : Driver Document).

(** Splits a goal about [run dumps drv] along the five ways the run can go
    and replaces the run by its result in each. *)
Ltac run_cases drv :=
  let Hcon := fresh "Hcon" in
  let Hping := fresh "Hping" in
  let Hc := fresh "Hc" in
  let Hcount := fresh "Hcount" in
  let Hz := fresh "Hz" in
  let Hfault := fresh "Hfault" in
  let count := fresh "count" in
  destruct (drv_connect drv MONGO_URI 5000) as [?e|] eqn:Hcon;
  [ rewrite ?(run_constructor_raises dumps drv _ Hcon)
  | destruct (drv_ping drv) as [?e|] eqn:Hping;
    [ rewrite ?(run_ping_raises dumps drv _ Hcon Hping)
    | assert (Hc : connect_fault drv = None)
        by (unfold connect_fault; rewrite Hcon; exact Hping);
      destruct (drv_count drv DB_NAME COLLECTION_NAME) as [?e|count] eqn:Hcount;
      [ rewrite ?(run_count_raises dumps drv _ Hc Hcount)
      | destruct (Z.eqb_spec count 0) as [Hz|Hz];
        [ subst count; rewrite ?(run_empty dumps drv Hc Hcount)
        | rewrite ?(run_sampling dumps drv _ Hc Hcount Hz);
          destruct (cursor_fault (drv_find drv DB_NAME COLLECTION_NAME SAMPLE_LIMIT))
            as [?e|] eqn:Hfault ] ] ] ];
  cbn [fst snd stdout stderr requests handles closes exit_code].

(** Takes the hypotheses apart and closes the goal when one of them is
    absurd. *)
Ltac break_up :=
  repeat match goal with
         | H : _ /\ _ |- _ => destruct H
         | H : _ \/ _ |- _ => destruct H
         | H : exists _, _ |- _ => destruct H
         | H : False |- _ => destruct H
         end;
  try discriminate; try congruence.

(** The exit status names the phase that failed, and only that. *)
Theorem exit_code_tells_phase drv :
  (exit_code (fst (run dumps drv)) = 0 <->
     connect_fault drv = None /\ query_fault drv = None) /\
  (exit_code (fst (run dumps drv)) = 2 <-> connect_fault drv <> None) /\
  (exit_code (fst (run dumps drv)) = 3 <->
     connect_fault drv = None /\ query_fault drv <> None).
Proof.
  rewrite run_outcome.
  destruct (connect_fault drv); [|destruct (query_fault drv)]; cbn;
    repeat split; intros; try discriminate; try congruence;
    repeat match goal with H : _ /\ _ |- _ => destruct H end; congruence.
Qed.

(** Standard error holds at most one message, and none exactly on the runs
    that exit with status 0. *)
Theorem stderr_silent_iff_success drv :
  (stderr (snd (run dumps drv)) = [] <-> exit_code (fst (run dumps drv)) = 0) /\
  (List.length (stderr (snd (run dumps drv))) <= 1)%nat.
Proof.
  rewrite run_stderr, run_outcome.
  destruct (connect_fault drv); [|destruct (query_fault drv)]; cbn;
    repeat split; intros; try discriminate; auto.
Qed.

(** The operations the script calls are an initial part of ping, count,
    find, in that order; the count is called exactly when the connection
    was verified and the find exactly when, besides, the count came back
    and was not 0. On the wire, however often the driver writes each
    command, the pings come first, then the counts, then the finds; a count
    is written only after the connection was verified and a find only
    after the count came back and was not 0. *)
Theorem requests_follow_protocol drv :
  (exists k, requests (snd (run dumps drv)) =
             firstn k [ReqPing; count_request; find_request]) /\
  (In count_request (requests (snd (run dumps drv))) <-> connect_fault drv = None) /\
  (In find_request (requests (snd (run dumps drv))) <->
     connect_fault drv = None /\
     exists count, drv_count drv DB_NAME COLLECTION_NAME = inr count /\ count <> 0) /\
  (forall sends : Sends,
     exists pings counts finds : nat,
       on_the_wire sends (requests (snd (run dumps drv))) =
         (repeat ReqPing pings ++
          repeat (ReqCount "clever_record_keeper" "students") counts ++
          repeat (ReqFind "clever_record_keeper" "students" 5) finds)%list /\
       (counts <> 0%nat -> connect_fault drv = None) /\
       (finds <> 0%nat ->
          connect_fault drv = None /\
          exists count, drv_count drv DB_NAME COLLECTION_NAME = inr count /\ count <> 0)).
Proof.
  unfold connect_fault.
  run_cases drv; (split; [|split; [split|split; [split|]]]).
  all: try (exists 0%nat; reflexivity).
  all: try (exists 1%nat; reflexivity).
  all: try (exists 2%nat; reflexivity).
  all: try (exists 3%nat; reflexivity).
  all: try (intros H; cbn in H; break_up; fail).
  all: try (intros _; cbn; auto; fail).
  all: try (intros _; split; [reflexivity|eexists; split; [reflexivity|assumption]]).
  all: intros sends;
    [> exists 0%nat, 0%nat, 0%nat
     | exists (sends ReqPing), 0%nat, 0%nat
     | exists (sends ReqPing), (sends count_request), 0%nat
     | exists (sends ReqPing), (sends count_request), 0%nat
     | exists (sends ReqPing), (sends count_request), (sends find_request)
     | exists (sends ReqPing), (sends count_request), (sends find_request) ].
  all: split; [cbn [on_the_wire flat_map]; rewrite ?app_nil_r; reflexivity|].
  all: split; intros Hne; try reflexivity; try (now destruct Hne).
  all: split; [reflexivity | eauto].
Qed.

(** Standard output stays empty until the count has come back; from then on
    it opens with the connection summary and the count exactly as the
    driver reported it, whichever branch follows and however the run ends. *)
Theorem stdout_opens_with_count drv :
  (stdout (snd (run dumps drv)) = [] <->
     connect_fault drv <> None \/
     exists e, drv_count drv DB_NAME COLLECTION_NAME = inl e) /\
  (forall count,
     connect_fault drv = None ->
     drv_count drv DB_NAME COLLECTION_NAME = inr count ->
     firstn 2 (stdout (snd (run dumps drv))) = [connected_line; count_line count]).
Proof.
  unfold connect_fault.
  run_cases drv; (split; [split|]).
  all: try (intros _; left; discriminate).
  all: try (intros _; right; eexists; reflexivity).
  all: try (intros _; reflexivity).
  all: try discriminate.
  all: try (intros count' H; discriminate).
  all: try (intros [H|[e' H]]; [now destruct H | discriminate]).
  all: try (intros count' _ H; inversion H; reflexivity).
Qed.

(** A client is closed at most once and only if it was constructed; one is
    left open exactly when the constructor succeeded and the ping raised. *)
Theorem client_balance drv :
  (closes (snd (run dumps drv)) <= handles (snd (run dumps drv)) <= 1)%nat /\
  (closes (snd (run dumps drv)) = 1%nat <-> connect_fault drv = None) /\
  (handles (snd (run dumps drv)) = S (closes (snd (run dumps drv))) <->
     drv_connect drv MONGO_URI 5000 = None /\ drv_ping drv <> None).
Proof.
  unfold connect_fault.
  run_cases drv; (split; [lia|split; split]).
  all: try discriminate.
  all: try (intros _; reflexivity).
  all: try (intros [H _]; discriminate).
  all: try (intros [_ H]; now destruct H).
  all: try (intros _; split; [reflexivity|discriminate]).
Qed.

(** The run is a function of four answers of the driver only: the
    constructor at the fixed URI and timeout, the ping, the count and the
    cursor of the one collection at the fixed limit. *)
Theorem run_reads_only_its_target drv1 drv2 :
  drv_connect drv1 MONGO_URI 5000 = drv_connect drv2 MONGO_URI 5000 ->
  drv_ping drv1 = drv_ping drv2 ->
  drv_count drv1 DB_NAME COLLECTION_NAME = drv_count drv2 DB_NAME COLLECTION_NAME ->
  drv_find drv1 DB_NAME COLLECTION_NAME SAMPLE_LIMIT =
    drv_find drv2 DB_NAME COLLECTION_NAME SAMPLE_LIMIT ->
  run dumps drv1 = run dumps drv2.
Proof.
  intros E1 E2 E3 E4.
  assert (Ec : connect_fault drv1 = connect_fault drv2)
    by (unfold connect_fault; now rewrite E1, E2).
  run_cases drv1.
  - symmetry. apply run_constructor_raises. now rewrite <- E1.
  - symmetry. apply run_ping_raises; [now rewrite <- E1 | now rewrite <- E2].
  - symmetry. apply run_count_raises; [now rewrite <- Ec | now rewrite <- E3].
  - symmetry. apply run_empty; [now rewrite <- Ec | now rewrite <- E3].
  - rewrite (run_sampling dumps drv2 count) by (congruence || assumption).
    unfold sampled. now rewrite <- E4, Hfault.
  - rewrite (run_sampling dumps drv2 count) by (congruence || assumption).
    unfold sampled. now rewrite <- E4, Hfault.
Qed.

(** ** The labels of a sample *)

(** [int(str(n)) == n]: the decimal text of an integer reads back as it. *)
Lemma str_int_reads_back (n : Z) :
  NilZero.int_of_string (str_int n) = Some (Z.to_int n).
Proof.
  unfold str_int. apply NilZero.isi; destruct n; cbn; try discriminate.
  all: intros H; injection H as H; now apply DecimalPos.Unsigned.to_uint_nonnil in H.
Qed.

Lemma str_int_inj (a b : Z) : str_int a = str_int b -> a = b.
Proof.
  intros H. apply DecimalZ.to_int_inj.
  assert (E : Some (Z.to_int a) = Some (Z.to_int b))
    by (rewrite <- !str_int_reads_back; now rewrite H).
  now injection E.
Qed.

Lemma append_inj_l (s t u : string) : (s ++ t = s ++ u)%string -> t = u.
Proof. induction s as [|c s IH]; cbn; [auto | intros H; injection H; auto]. Qed.

Lemma append_inj_r (t : string) : forall s u : string,
  (s ++ t = u ++ t)%string -> s = u.
Proof.
  assert (Hlen : forall a b : string,
             String.length (a ++ b) = (String.length a + String.length b)%nat).
  { induction a as [|c a IH]; intros b; cbn; [reflexivity | now rewrite IH]. }
  induction s as [|c s IH]; intros [|d u] H; cbn in H.
  - reflexivity.
  - apply (f_equal String.length) in H. cbn in H. rewrite Hlen in H. lia.
  - apply (f_equal String.length) in H. cbn in H. rewrite Hlen in H. lia.
  - injection H as -> H. f_equal. now apply IH.
Qed.

Lemma document_label_inj (i j : Z) : document_label i = document_label j -> i = j.
Proof.
  unfold document_label. intros H.
  apply append_inj_l, append_inj_r in H. now apply str_int_inj.
Qed.

Lemma enumerate_indices {A} (l : list A) : forall n : nat,
  map fst (enumerate (Z.of_nat n) l) = map Z.of_nat (seq n (List.length l)).
Proof.
  induction l as [|x rest IH]; intros n; [reflexivity|].
  cbn [enumerate map List.length seq fst]. f_equal.
  replace (Z.of_nat n + 1) with (Z.of_nat (S n)) by lia. apply IH.
Qed.

Lemma labels_of_blocks (docs : list Document) :
  (forall doc, starts_with "{" (dumps doc 2) = true) ->
  forall i,
    filter is_document_label (flat_map (document_block dumps) (enumerate i docs)) =
    map document_label (map fst (enumerate i docs)).
Proof.
  intros Hobj. induction docs as [|doc rest IH]; intros i; [reflexivity|].
  cbn [enumerate flat_map map fst]. rewrite filter_app, IH.
  unfold document_block. cbn [fst snd filter].
  rewrite label_is_label, (object_is_no_label _ (Hobj doc)). reflexivity.
Qed.

Lemma NoDup_map_injective {A B} (f : A -> B) (l : list A) :
  (forall x y, f x = f y -> x = y) -> NoDup l -> NoDup (map f l).
Proof.
  intros Hinj. induction 1 as [|x l Hx Hl IH]; cbn; constructor; [|exact IH].
  intros Hin. apply in_map_iff in Hin. destruct Hin as (y & Hy & Hin).
  apply Hinj in Hy. now subst y.
Qed.

(** Whatever count the driver reported, and whether or not the cursor
    breaks later, the labels on standard output are "--- Document 1 ---" up
    to "--- Document n ---" in ascending order, [n] being the number of
    documents the cursor yielded. *)
Theorem labels_number_the_yielded drv count :
  (forall doc, starts_with "{" (dumps doc 2) = true) ->
  connect_fault drv = None ->
  drv_count drv DB_NAME COLLECTION_NAME = inr count ->
  count <> 0 ->
  filter is_document_label (stdout (snd (run dumps drv))) =
  map (fun k => document_label (Z.of_nat k))
      (seq 1 (List.length (cursor_docs (drv_find drv DB_NAME COLLECTION_NAME SAMPLE_LIMIT)))).
Proof.
  intros Hobj Hc Hn Hz.
  assert (Hout : stdout (snd (run dumps drv)) = (preamble count ++ sampled dumps drv)%list).
  { rewrite (run_sampling _ _ _ Hc Hn Hz). now destruct (cursor_fault _). }
  rewrite Hout, filter_app. unfold sampled.
  rewrite (labels_of_blocks _ Hobj), (enumerate_indices _ 1%nat), map_map.
  reflexivity.
Qed.

(** No two entries of standard output carry the same document label. *)
Theorem labels_never_repeat drv :
  (forall doc, starts_with "{" (dumps doc 2) = true) ->
  NoDup (filter is_document_label (stdout (snd (run dumps drv)))).
Proof.
  intros Hobj.
  destruct (connect_fault drv) as [e|] eqn:Hc.
  - destruct (run_not_connected dumps _ _ Hc) as (sent & opened & -> & _). constructor.
  - destruct (drv_count drv DB_NAME COLLECTION_NAME) as [e|count] eqn:Hn.
    + rewrite (run_count_raises _ _ _ Hc Hn). constructor.
    + destruct (Z.eqb_spec count 0) as [->|Hz].
      * rewrite (run_empty _ _ Hc Hn). cbn. constructor.
      * rewrite (labels_number_the_yielded _ _ Hobj Hc Hn Hz).
        apply NoDup_map_injective; [|apply seq_NoDup].
        intros x y H. apply document_label_inj in H. lia.
Qed.

(** Against a deployment that honours the contract and holds at least one
    document, standard output is the status entries, with the true size of
    the collection on the count line, followed by the blocks of the first
    five documents of the collection in its natural order; nothing reaches
    standard error and the exit status is 0. *)
Theorem healthy_prints_first_five (collections : string -> string -> list Document) :
  collections DB_NAME COLLECTION_NAME <> [] ->
  run dumps (healthy collections) =
  (Normal tt,
   mkProcess
     (preamble (Z.of_nat (List.length (collections DB_NAME COLLECTION_NAME))) ++
      flat_map (document_block dumps)
        (enumerate 1 (firstn 5 (collections DB_NAME COLLECTION_NAME))))
     [] [ReqPing; count_request; find_request] 1 1).
Proof.
  intros Hne.
  assert (Hc : connect_fault (healthy collections) = None) by reflexivity.
  assert (Hn : drv_count (healthy collections) DB_NAME COLLECTION_NAME
               = inr (Z.of_nat (List.length (collections DB_NAME COLLECTION_NAME))))
    by reflexivity.
  rewrite (run_sampling _ _ _ Hc Hn)
    by (destruct (collections DB_NAME COLLECTION_NAME); [congruence | cbn; lia]).
  unfold sampled. cbn [healthy drv_find].
  rewrite cursor_fault_over, cursor_docs_over. reflexivity.
Qed.

End Whole_run.

(** ** The further properties on the sample deployment *)

(** Two deployments that differ everywhere but in the students collection
    give the same run. *)
Lemma run_reads_only_its_target_witness :
  drv_connect (healthy (campus three_students)) MONGO_URI 5000 =
    drv_connect (healthy shared_cluster) MONGO_URI 5000 /\
  drv_ping (healthy (campus three_students)) = drv_ping (healthy shared_cluster) /\
  drv_count (healthy (campus three_students)) DB_NAME COLLECTION_NAME =
    drv_count (healthy shared_cluster) DB_NAME COLLECTION_NAME /\
  drv_find (healthy (campus three_students)) DB_NAME COLLECTION_NAME SAMPLE_LIMIT =
    drv_find (healthy shared_cluster) DB_NAME COLLECTION_NAME SAMPLE_LIMIT /\
  run sample_dumps (healthy (campus three_students)) =
    run sample_dumps (healthy shared_cluster).
Proof.
  split; [reflexivity|]. split; [reflexivity|].
  split; [vm_compute; reflexivity|]. split; [vm_compute; reflexivity|].
  apply (run_reads_only_its_target sample_dumps
           (healthy (campus three_students)) (healthy shared_cluster));
    vm_compute; reflexivity.
Defined.

(** The count says three, the cursor yields two documents and breaks: two
    labels. *)
Lemma labels_number_the_yielded_witness :
  (forall doc, starts_with "{" (sample_dumps doc 2) = true) /\
  connect_fault cursor_breaks = None /\
  drv_count cursor_breaks DB_NAME COLLECTION_NAME = inr 3 /\
  3 <> 0 /\
  filter is_document_label (stdout (snd (run sample_dumps cursor_breaks))) =
  map (fun k => document_label (Z.of_nat k))
      (seq 1 (List.length
                (cursor_docs (drv_find cursor_breaks DB_NAME COLLECTION_NAME SAMPLE_LIMIT)))).
Proof.
  split; [exact sample_dumps_object|].
  split; [reflexivity|]. split; [reflexivity|]. split; [lia|].
  apply (labels_number_the_yielded sample_dumps cursor_breaks 3);
    [exact sample_dumps_object | reflexivity | reflexivity | lia].
Defined.

Lemma labels_never_repeat_witness :
  (forall doc, starts_with "{" (sample_dumps doc 2) = true) /\
  NoDup (filter is_document_label
           (stdout (snd (run sample_dumps (healthy (campus twelve_students)))))).
Proof.
  split; [exact sample_dumps_object|].
  apply (labels_never_repeat sample_dumps (healthy (campus twelve_students))).
  exact sample_dumps_object.
Defined.

Lemma healthy_prints_first_five_witness :
  campus twelve_students DB_NAME COLLECTION_NAME <> [] /\
  run sample_dumps (healthy (campus twelve_students)) =
  (Normal tt,
   mkProcess
     (preamble (Z.of_nat (List.length (campus twelve_students DB_NAME COLLECTION_NAME))) ++
      flat_map (document_block sample_dumps)
        (enumerate 1 (firstn 5 (campus twelve_students DB_NAME COLLECTION_NAME))))
     [] [ReqPing; count_request; find_request] 1 1).
Proof.
  split; [cbv; discriminate|].
  apply (healthy_prints_first_five sample_dumps (campus twelve_students)).
  cbv; discriminate.
Defined.

(** A stale count: three documents reported, none found. The script prints
    the sample header and no block, and exits with status 0. *)
Example scenario_stale_count :
  let '(outcome, process) := run sample_dumps stale_count in
  stdout process = [connected_line; "Document count: 3"; showing_line] /\
  stderr process = [] /\
  exit_code outcome = 0.
Proof. vm_compute. repeat split. Qed.


(** * What a block holds *)

Section Rendering.

(** ** Text *)






(** ** The encoder *)






(** ** Text that needs no escaping *)









(** ** One document *)





(** ** The blocks of a sample *)



End Rendering.

